(** * PythonExecute: the out-of-process Python snippet runner

    A shallow embedding of [src/app/tool/python_execute.py]
    ([PythonExecute._run_code] and [PythonExecute.execute]) together with
    the properties of its result record.

    What Python and the operating system do (parsing, running the snippet,
    the file system, how long the worker needs) is not part of the
    repository; it is collected in the class [Host] and every definition
    and theorem is stated for an arbitrary host.

    Strings are [string]s of 8-bit characters, read as the code points
    below 256. *)

From Stdlib Require Import ZArith String Ascii List.
From Stdlib Require Import Numbers.DecimalString.
From stdpp Require Import base option gmap strings.

Open Scope string_scope.
Open Scope Z_scope.

(** ** Python strings *)

Module PyStr.

(** The line feed used by the f-strings and by [+ "\n" +]. *)
Definition nl : string := String "010"%char EmptyString.

(** [str(n)] for an [int]. *)
Definition str_of_int (n : Z) : string :=
  NilZero.string_of_int (Z.to_int n).

(** [c.isspace()], for a code point below 256: TAB..CR, FS..US, space,
    NEL and NBSP. *)
Definition isspace (c : ascii) : bool :=
  let n := N_of_ascii c in
  ((9 <=? n) && (n <=? 13) || (28 <=? n) && (n <=? 32)
   || (n =? 133) || (n =? 160))%N.

Fixpoint lstrip (s : string) : string :=
  match s with
  | EmptyString => EmptyString
  | String c s' => if isspace c then lstrip s' else s
  end.

Fixpoint rstrip (s : string) : string :=
  match s with
  | EmptyString => EmptyString
  | String c s' =>
      match rstrip s' with
      | EmptyString => if isspace c then EmptyString else String c EmptyString
      | r => String c r
      end
  end.

(** [s.strip()] *)
Definition strip (s : string) : string := rstrip (lstrip s).

(** [sub in s] *)
Definition contains (s sub : string) : Prop :=
  exists pre post : string, s = pre ++ sub ++ post.



(** The last character, when there is one. *)
Fixpoint last_char (s : string) : option ascii :=
  match s with
  | EmptyString => None
  | String c EmptyString => Some c
  | String _ s' => last_char s'
  end.

End PyStr.

Import PyStr.

(** ** The result record

    [execute] returns a [dict] with the keys [stdout], [stderr],
    [exit_code], [success] and [observation]; the worker fills a
    [manager.dict] with the same keys, one assignment at a time. *)

Inductive pyval : Type :=
| VStr (s : string)
| VInt (z : Z)
| VBool (b : bool).

Abbreviation pydict := (gmap string pyval).

(** A dict display with the five keys. *)
Definition result_record (out err : string) (code : Z) (ok : bool)
    (obs : string) : pydict :=
  {[ "stdout" := VStr out;
     "stderr" := VStr err;
     "exit_code" := VInt code;
     "success" := VBool ok;
     "observation" := VStr obs ]}.

(** [manager.dict({"stdout": "", "stderr": "", "exit_code": -1,
    "success": False, "observation": ""})] *)
Definition initial_result : pydict :=
  result_record "" "" (-1) false "".

(** [d[dst] = d[src]]; the source key has always just been stored, so the
    [KeyError] branch is never taken. *)
Definition copy_item (src dst : string) (d : pydict) : pydict :=
  match d !! src with
  | Some v => <[dst := v]> d
  | None => d
  end.

(** ** Exceptions, and what the host can do *)

(** An exception as the handlers use it: [str(e)] and the text
    [traceback.format_exc()] gives while it is handled. *)
Record exn : Type := Exn { exn_str : string; exn_tb : string }.

(** [ast.parse(code)] *)
Inductive parse_outcome : Type :=
| Parsed
| SyntaxError (e : exn)
| OtherError (e : exn).   (* not a SyntaxError: propagates to the caller *)

(** [os.chdir(path)] *)
Inductive chdir_outcome : Type :=
| ChdirOk (new_cwd : string)
| ChdirFails (e : exn).   (* an OSError *)

(** How [exec(code, safe_globals, safe_globals)] ends in the worker. *)
Inductive ending : Type :=
| Returns                 (* ran to completion *)
| Raises (e : exn)        (* an instance of Exception propagated *)
| Escapes                 (* SystemExit, KeyboardInterrupt, ...: BaseException
                             outside Exception *)
| Dies                    (* the process itself ended: os._exit, a signal *)
| Loops.                  (* never ends *)

(** A globals dict: names bound to objects; [__builtins__] is bound to a
    dict of names itself. *)
Inductive binding (object : Type) : Type :=
| Obj (o : object)
| Builtins (names : gmap string object).
Arguments Obj {object}.
Arguments Builtins {object}.

(** What [exec] did: how it ended and what it left behind. *)
Record run (Env object : Type) : Type := Run {
  run_ending : ending;
  run_out : string;            (* output_buffer.getvalue() at that point *)
  run_err : string;            (* error_buffer.getvalue() at that point *)
  run_cwd : string;            (* the worker's os.getcwd() at that point *)
  run_globals : gmap string (binding object);
                               (* the globals dict at that point *)
  run_env : Env;               (* the host environment it leaves *)
  run_millis : Z;              (* the time it took, when it ends *)
  run_env_killed : Z -> Env    (* the host environment it leaves when it is
                                  terminated after that many seconds *)
}.
Arguments Run {Env object}.
Arguments run_ending {Env object}.
Arguments run_out {Env object}.
Arguments run_err {Env object}.
Arguments run_cwd {Env object}.
Arguments run_globals {Env object}.
Arguments run_env {Env object}.
Arguments run_millis {Env object}.
Arguments run_env_killed {Env object}.

(** The module's [__builtins__]: a dict in an imported module, the
    [builtins] module in [__main__]. *)
Inductive builtins_ref (object : Type) : Type :=
| BuiltinsDict (names : gmap string object)
| BuiltinsModule (names : gmap string object).
Arguments BuiltinsDict {object}.
Arguments BuiltinsModule {object}.

Class Host : Type := {
  (** everything outside the interpreter: files, directories, ... *)
  Env : Type;
  (** Python objects *)
  object : Type;
  ast_parse : string -> parse_outcome;
  (** [os.path.isdir(path)] in a process whose working directory is [cwd] *)
  os_path_isdir : Env -> forall cwd path : string, bool;
  os_chdir : Env -> forall cwd path : string, chdir_outcome;
  (** [exec(code, globals, globals)] in a process whose working directory
      is [cwd] *)
  py_exec : forall code : string, gmap string (binding object) ->
            forall cwd : string, Env -> run Env object;
  (** [traceback.format_exc()] for the FileNotFoundError that [_run_code]
      raises with the given message *)
  fnf_traceback : string -> string;
  (** time from [proc.start()] to the first statement of [_run_code] *)
  startup_millis : Z
}.

(** ** Processes *)

(** What [sys.stdout] or [sys.stderr] is bound to. *)
Inductive stream : Type :=
| Inherited        (* the stream the process started with *)
| OutputBuffer     (* output_buffer = StringIO() *)
| ErrorBuffer.     (* error_buffer = StringIO() *)

(** What the parent does to other processes and to the log. *)
Inductive event : Type :=
| LogError (msg : string)    (* logger.error(msg) *)
| StartManager               (* multiprocessing.Manager().__enter__ *)
| StartWorker                (* proc.start() *)
| TerminateWorker            (* proc.terminate() *)
| ShutdownManager.           (* Manager.__exit__ *)

Section Executor.

Context `{H : Host}.

Abbreviation namespace := (gmap string (binding object)).

(** The state private to one process. *)
Record process : Type := Process {
  cwd : string;                       (* os.getcwd() *)
  sys_stdout : stream;
  sys_stderr : stream;
  builtins : builtins_ref object      (* __builtins__ of this module *)
}.

(** The caller's process, the host it runs on, and what it has done. *)
Record world : Type := World {
  caller : process;
  env : Env;
  events : list event
}.

(** What a worker process leaves behind. *)
Record worker : Type := Worker {
  wk_result : pydict;          (* the shared result_dict after its writes *)
  wk_process : option process; (* its own state when _run_code is left;
                                  None when it does not get there *)
  wk_env : Env;                (* the host when it has ended *)
  wk_env_killed : Z -> Env;    (* the host when it is terminated instead *)
  wk_needs : option Z;         (* milliseconds until it has ended *)
  wk_ran_body : bool;          (* exec(code, ...) was entered *)
  wk_globals : namespace       (* safe_globals when it stopped *)
}.

(** [if working_directory:] *)
Definition truthy (working_directory : option string) : bool :=
  match working_directory with
  | Some wd => negb (String.eqb wd "")
  | None => false
  end.

(** [f"{working_directory}"]; only formatted where it is truthy. *)
Definition wd_text (working_directory : option string) : string :=
  match working_directory with
  | Some wd => wd
  | None => "None"
  end.

(** [FileNotFoundError(f"Specified working_directory '{working_directory}'
    does not exist or is not a directory.")] *)
Definition not_a_directory_message (wd : string) : string :=
  "Specified working_directory '" ++ wd
    ++ "' does not exist or is not a directory.".

Definition file_not_found (wd : string) : exn :=
  Exn (not_a_directory_message wd)
      (fnf_traceback (not_a_directory_message wd)).

(** Lines 60-64: the writes after [exec] returned. *)
Definition record_success (out err : string) (result_dict : pydict)
    : pydict :=
  let d1 := <["stdout" := VStr out]> result_dict in
  let d2 := <["stderr" := VStr err]> d1 in
  let d3 := <["exit_code" := VInt 0]> d2 in
  let d4 := <["success" := VBool true]> d3 in
  copy_item "stdout" "observation" d4.

(** Line 69: [(stderr_capture + "\n" + str(e) + "\n" +
    exception_traceback).strip()] *)
Definition failure_text (stderr_capture : string) (e : exn) : string :=
  strip (stderr_capture ++ nl ++ exn_str e ++ nl ++ exn_tb e).

(** Lines 66-72: the handler of [except Exception as e]. *)
Definition record_failure (out err : string) (e : exn)
    (result_dict : pydict) : pydict :=
  let d1 := <["stdout" := VStr out]> result_dict in
  let d2 := <["stderr" := VStr (failure_text err e)]> d1 in
  let d3 := <["exit_code" := VInt 1]> d2 in
  let d4 := <["success" := VBool false]> d3 in
  copy_item "stderr" "observation" d4.

(** Lines 51-57: entering the working directory. On success, the
    worker's directory and [cwd_changed_successfully]. *)
Definition enter_directory (working_directory : option string)
    (p : process) (e : Env) : exn + (string * bool) :=
  match working_directory with
  | Some wd =>
      if truthy working_directory then
        if os_path_isdir e (cwd p) wd then
          match os_chdir e (cwd p) wd with
          | ChdirOk c => inr (c, true)
          | ChdirFails x => inl x
          end
        else inl (file_not_found wd)
      else inr (cwd p, false)
  | None => inr (cwd p, false)
  end.

(** Lines 73-77: the [finally] block, run in the process state [q]. Going
    back to [original_cwd] is taken to succeed. *)
Definition restore (original : process) (cwd_changed_successfully : bool)
    (q : process) : process :=
  {| cwd := if cwd_changed_successfully then cwd original else cwd q;
     sys_stdout := sys_stdout original;
     sys_stderr := sys_stderr original;
     builtins := builtins q |}.

(** [PythonExecute._run_code], run in a process of its own whose state
    starts as [p]. *)
Definition _run_code (code : string) (result_dict : pydict)
    (safe_globals : namespace) (working_directory : option string)
    (p : process) (e : Env) : worker :=
  let redirected :=
    {| cwd := cwd p; sys_stdout := OutputBuffer;
       sys_stderr := ErrorBuffer; builtins := builtins p |} in
  match enter_directory working_directory p e with
  | inl x =>
      {| wk_result := record_failure "" "" x result_dict;
         wk_process := Some (restore p false redirected);
         wk_env := e;
         wk_env_killed := fun _ => e;
         wk_needs := Some startup_millis;
         wk_ran_body := false;
         wk_globals := safe_globals |}
  | inr (c, changed) =>
      let r := py_exec code safe_globals c e in
      let left :=
        {| cwd := run_cwd r; sys_stdout := OutputBuffer;
           sys_stderr := ErrorBuffer; builtins := builtins p |} in
      let ended := Some (startup_millis + run_millis r) in
      let wk d q t :=
        {| wk_result := d; wk_process := q; wk_env := run_env r;
           wk_env_killed := run_env_killed r; wk_needs := t;
           wk_ran_body := true; wk_globals := run_globals r |} in
      match run_ending r with
      | Returns =>
          wk (record_success (run_out r) (run_err r) result_dict)
             (Some (restore p changed left)) ended
      | Raises x =>
          wk (record_failure (run_out r) (run_err r) x result_dict)
             (Some (restore p changed left)) ended
      | Escapes =>
          wk result_dict (Some (restore p changed left)) ended
      | Dies => wk result_dict None ended
      | Loops => wk result_dict None None
      end
  end.

(** [proc.join(timeout)] followed by [proc.is_alive()]: the worker is
    alive when it needs more than [timeout] seconds. *)
Definition is_alive_after_join (timeout : Z) (needs : option Z) : bool :=
  match needs with
  | Some millis => 1000 * timeout <? millis
  | None => true
  end.

(** Lines 128-130 *)
Definition timeout_message (timeout : Z)
    (working_directory : option string) : string :=
  let timeout_message :=
    "Execution timeout after " ++ str_of_int timeout ++ " seconds" in
  if truthy working_directory then
    timeout_message ++ " (in working_directory: '"
      ++ wd_text working_directory ++ "')"
  else timeout_message.

(** Lines 111-114 *)
Definition make_safe_globals (b : builtins_ref object) : namespace :=
  match b with
  | BuiltinsDict names => {[ "__builtins__" := Builtins names ]}
  | BuiltinsModule names => {[ "__builtins__" := Builtins names ]}
  end.

(** What the caller gets: a dict, or an exception that propagates. *)
Inductive reply : Type :=
| Returned (d : pydict)
| Propagated (e : exn).

Definition did (evs : list event) (w : world) : world :=
  {| caller := caller w; env := env w; events := events w ++ evs |}.

(** The worker of one call: a new process that starts as a copy of the
    caller's. *)
Definition spawn_worker (code : string) (working_directory : option string)
    (w : world) : worker :=
  _run_code code initial_result (make_safe_globals (builtins (caller w)))
    working_directory (caller w) (env w).

(** [PythonExecute.execute] *)
Definition execute (code : string) (timeout : Z)
    (working_directory : option string) (w : world) : reply * world :=
  match ast_parse code with
  | SyntaxError e =>
      let error_details :=
        "SyntaxError: " ++ exn_str e ++ nl ++ exn_tb e in
      (Returned (result_record "" error_details 1 false error_details),
       did [LogError ("SyntaxError in provided code: " ++ exn_str e
                        ++ nl ++ exn_tb e)] w)
  | OtherError e => (Propagated e, w)
  | Parsed =>
      let wk := spawn_worker code working_directory w in
      if is_alive_after_join timeout (wk_needs wk) then
        let timeout_message := timeout_message timeout working_directory in
        (Returned (result_record "" timeout_message 1 false timeout_message),
         {| caller := caller w;
            env := wk_env_killed wk timeout;
            events := events w ++ [StartManager; StartWorker;
                                   TerminateWorker; ShutdownManager] |})
      else
        (Returned (wk_result wk),
         {| caller := caller w;
            env := wk_env wk;
            events := events w ++ [StartManager; StartWorker;
                                   ShutdownManager] |})
  end.

End Executor.

(** ** A small host

    A host that knows a handful of snippets, to run the executor on
    concrete calls. Its environment is the list of the directories that
    exist; its objects are integers. *)

Module Demo.

Definition dq : string := String "034"%char EmptyString.

Definition source_file : string :=
  "  File " ++ dq ++ "app/tool/python_execute.py" ++ dq.

Definition in_exec : string :=
  "Traceback (most recent call last):" ++ nl
  ++ source_file ++ ", line 59, in _run_code" ++ nl
  ++ "    exec(code, safe_globals, safe_globals)" ++ nl
  ++ "  File " ++ dq ++ "<string>" ++ dq ++ ", line 1, in <module>" ++ nl.

(** [1/0] *)
Definition zero_division : exn :=
  Exn "division by zero"
      (in_exec ++ "ZeroDivisionError: division by zero" ++ nl).

(** [os.mkdir('/tmp/d')] when the directory is there already *)
Definition file_exists : exn :=
  Exn "[Errno 17] File exists: '/tmp/d'"
      (in_exec ++ "FileExistsError: [Errno 17] File exists: '/tmp/d'" ++ nl).

(** [ast.parse("print('hi'")] *)
Definition never_closed : exn :=
  Exn "'(' was never closed (<unknown>, line 1)"
      ("Traceback (most recent call last):" ++ nl
       ++ source_file ++ ", line 97, in execute" ++ nl
       ++ "    ast.parse(code)" ++ nl
       ++ "  File " ++ dq ++ "<unknown>" ++ dq ++ ", line 1" ++ nl
       ++ "    print('hi'" ++ nl
       ++ "         ^" ++ nl
       ++ "SyntaxError: '(' was never closed" ++ nl).

Definition hello : string := "print('hi')".
Definition unclosed : string := "print('hi'".
Definition print_then_divide : string := "print('a'); 1/0".
Definition sys_exit : string := "import sys; sys.exit(0)".
Definition print_then_spin : string :=
  "print('hi')" ++ nl ++ "while True: pass".
Definition mkdir : string := "import os; os.mkdir('/tmp/d')".
Definition assign_x : string := "x = 1".
Definition chdir_tmp : string := "import os; os.chdir('/tmp')".

Definition is_directory (dirs : list string) (path : string) : bool :=
  existsb (String.eqb path) dirs.

Definition demo_exec (code : string) (globals : gmap string (binding Z))
    (cwd : string) (dirs : list string) : run (list string) Z :=
  let quick ending out cwd' globals' dirs' :=
    {| run_ending := ending; run_out := out; run_err := "";
       run_cwd := cwd'; run_globals := globals'; run_env := dirs';
       run_millis := 1; run_env_killed := fun _ => dirs |} in
  if String.eqb code hello then
    quick Returns ("hi" ++ nl) cwd globals dirs
  else if String.eqb code print_then_divide then
    quick (Raises zero_division) ("a" ++ nl) cwd globals dirs
  else if String.eqb code sys_exit then
    quick Escapes "" cwd globals dirs
  else if String.eqb code print_then_spin then
    quick Loops ("hi" ++ nl) cwd globals dirs
  else if String.eqb code mkdir then
    if is_directory dirs "/tmp/d" then
      quick (Raises file_exists) "" cwd globals dirs
    else quick Returns "" cwd globals ("/tmp/d" :: dirs)
  else if String.eqb code assign_x then
    quick Returns "" cwd (<["x" := Obj 1]> globals) dirs
  else if String.eqb code chdir_tmp then
    quick Returns "" "/tmp" globals dirs
  else quick Returns "" cwd globals dirs.

#[export] Instance host : Host := {|
  Env := list string;
  object := Z;
  ast_parse code :=
    if String.eqb code unclosed then SyntaxError never_closed else Parsed;
  os_path_isdir dirs _ path := is_directory dirs path;
  os_chdir _ _ path := ChdirOk path;
  py_exec := demo_exec;
  fnf_traceback msg :=
    "Traceback (most recent call last):" ++ nl
    ++ source_file ++ ", line 57, in _run_code" ++ nl
    ++ "FileNotFoundError: " ++ msg ++ nl;
  startup_millis := 50
|}.

(** The agent's process in [/home/agent], on a host with [/tmp]. *)
Definition agent : world :=
  {| caller := {| cwd := "/home/agent"; sys_stdout := Inherited;
                  sys_stderr := Inherited;
                  builtins := BuiltinsDict {[ "print" := 0; "len" := 1 ]} |};
     env := ["/home/agent"; "/tmp"];
     events := [] |}.

(** What [exec] does with [print_then_divide] in the worker of a call made
    by [agent] with no working directory. *)
Definition divide_run : run (list string) Z :=
  demo_exec print_then_divide (make_safe_globals (builtins (caller agent)))
    "/home/agent" (env agent).

End Demo.

(** ** A host with a directory that cannot be entered

    The small host again, with a directory [/root] that exists and that
    [os.chdir] refuses to enter, and with an [ast.parse] that raises
    ValueError on a null byte, as Python did before 3.12. *)

Module Locked.

Definition null_byte : string := String "000"%char EmptyString.

(** [ast.parse("\0")] *)
Definition null_bytes : exn :=
  Exn "source code string cannot contain null bytes"
      ("Traceback (most recent call last):" ++ nl
       ++ Demo.source_file ++ ", line 97, in execute" ++ nl
       ++ "    ast.parse(code)" ++ nl
       ++ "ValueError: source code string cannot contain null bytes" ++ nl).

(** [os.chdir('/root')] without the permission *)
Definition permission_denied : exn :=
  Exn "[Errno 13] Permission denied: '/root'"
      ("Traceback (most recent call last):" ++ nl
       ++ Demo.source_file ++ ", line 53, in _run_code" ++ nl
       ++ "    os.chdir(working_directory)" ++ nl
       ++ "PermissionError: [Errno 13] Permission denied: '/root'" ++ nl).

Definition host : Host := {|
  Env := list string;
  object := Z;
  ast_parse code :=
    if String.eqb code null_byte then OtherError null_bytes
    else @ast_parse Demo.host code;
  os_path_isdir dirs _ path := Demo.is_directory dirs path;
  os_chdir _ _ path :=
    if String.eqb path "/root" then ChdirFails permission_denied
    else ChdirOk path;
  py_exec := Demo.demo_exec;
  fnf_traceback := @fnf_traceback Demo.host;
  startup_millis := 50
|}.

(** The agent's process in [/home/agent], on a host with [/root]. *)
Definition agent : @world host :=
  @World host
    (@Process host "/home/agent" Inherited Inherited
       (BuiltinsDict {[ "print" := 0; "len" := 1 ]}))
    ["/home/agent"; "/root"] [].

End Locked.

(** ** How a call goes

    The notions the properties are stated with, read off the host the same
    way [execute] and [_run_code] read it. *)

Section Courses.

Context `{H : Host}.

(** The worker of the call has ended when [proc.join(timeout)] is over. *)
Definition ends_in_time (code : string) (timeout : Z)
    (working_directory : option string) (w : world) : Prop :=
  is_alive_after_join timeout
    (wk_needs (spawn_worker code working_directory w)) = false.

(** The [exec] of the call's worker, when the worker gets that far. *)
Definition body_run (code : string) (working_directory : option string)
    (w : world) : option (run Env object) :=
  match enter_directory working_directory (caller w) (env w) with
  | inl _ => None
  | inr (c, _) =>
      Some (py_exec code (make_safe_globals (builtins (caller w))) c (env w))
  end.


(** The worker ended in time and stored nothing in the result dict. *)
Definition ends_unrecorded (code : string) (timeout : Z)
    (working_directory : option string) (w : world) : Prop :=
  ast_parse code = Parsed /\
  ends_in_time code timeout working_directory w /\
  exists r, body_run code working_directory w = Some r /\
            (run_ending r = Escapes \/ run_ending r = Dies).

(** The results [execute] builds. *)
Inductive well_formed : pydict -> Prop :=
| wf_success (out err : string) :
    well_formed (result_record out err 0 true out)
| wf_failure (out err : string) :
    well_formed (result_record out err 1 false err)
| wf_unrecorded :
    well_formed initial_result.


End Courses.

(** ** Facts about strings *)

Module PyStrFacts.

Lemma append_cons (c : ascii) (s t : string) :
  String c s ++ t = String c (s ++ t).
Proof. reflexivity. Qed.

Lemma append_nil_r (s : string) : s ++ "" = s.
Proof.
  induction s as [|c s IH]; [reflexivity|].
  rewrite append_cons. now rewrite IH.
Qed.

Lemma append_assoc (s t u : string) : (s ++ t) ++ u = s ++ t ++ u.
Proof.
  induction s as [|c s IH]; [reflexivity|].
  rewrite !append_cons. now rewrite IH.
Qed.

Lemma contains_here (pre sub post : string) :
  contains (pre ++ sub ++ post) sub.
Proof. now exists pre, post. Qed.

Lemma contains_append_l (s t sub : string) :
  contains s sub -> contains (s ++ t) sub.
Proof.
  intros (pre & post & ->). exists pre, (post ++ t).
  now rewrite !append_assoc.
Qed.

Lemma contains_append_r (s t sub : string) :
  contains t sub -> contains (s ++ t) sub.
Proof.
  intros (pre & post & ->). exists (s ++ pre), post.
  now rewrite append_assoc.
Qed.

Lemma contains_empty (s : string) : contains s "".
Proof. exists s, "". cbn. now rewrite append_nil_r. Qed.



Lemma lstrip_keeps (c : ascii) (s : string) :
  isspace c = false -> lstrip (String c s) = String c s.
Proof. intros Hc. cbn [lstrip]. now rewrite Hc. Qed.

(** Nothing before a character that is not white space is stripped from
    the right. *)
Lemma rstrip_keeps (s : string) (c : ascii) (t : string) :
  isspace c = false ->
  rstrip (s ++ String c t) = s ++ String c (rstrip t).
Proof.
  intros Hc. induction s as [|a s IH].
  - change ("" ++ String c t) with (String c t).
    change ("" ++ String c (rstrip t)) with (String c (rstrip t)).
    cbn [rstrip]. destruct (rstrip t); [now rewrite Hc | reflexivity].
  - rewrite !append_cons. cbn [rstrip]. rewrite IH.
    destruct s; reflexivity.
Qed.

(** [strip] keeps a text that starts and ends with characters that are
    not white space, whatever follows a line feed after it. *)
Lemma strip_keeps_line (a : ascii) (body : string) (z : ascii)
    (rest : string) :
  isspace a = false -> isspace z = false ->
  strip ("" ++ nl ++ String a (body ++ String z "") ++ nl ++ rest)
  = String a body ++ String z (rstrip (nl ++ rest)).
Proof.
  intros Ha Hz. unfold strip.
  change ("" ++ nl ++ String a (body ++ String z "") ++ nl ++ rest)
    with (String "010"%char (String a (body ++ String z "") ++ nl ++ rest)).
  cbn [lstrip]. change (isspace "010"%char) with true. cbn match.
  rewrite append_cons, lstrip_keeps by exact Ha.
  rewrite append_assoc, <- append_cons.
  change (String z "" ++ nl ++ rest) with (String z (nl ++ rest)).
  now apply rstrip_keeps.
Qed.

End PyStrFacts.

Import PyStrFacts.

(** ** The worker and the result it leaves *)

Section WorkerFacts.

Context `{H : Host}.

Lemma record_success_initial (out err : string) :
  record_success out err initial_result = result_record out err 0 true out.
Proof. vm_compute. reflexivity. Qed.

Lemma record_failure_initial (out err : string) (e : exn) :
  record_failure out err e initial_result
  = result_record out (failure_text err e) 1 false (failure_text err e).
Proof.
  unfold record_failure. generalize (failure_text err e) as text.
  intros text. vm_compute. reflexivity.
Qed.

(** The result dict of a worker, by the path it took. *)
Lemma worker_result (code : string) (wd : option string) (w : world) :
  wk_result (spawn_worker code wd w) =
  match enter_directory wd (caller w) (env w) with
  | inl x => result_record "" (failure_text "" x) 1 false (failure_text "" x)
  | inr (c, _) =>
      let r := py_exec code (make_safe_globals (builtins (caller w))) c
                 (env w) in
      match run_ending r with
      | Returns => result_record (run_out r) (run_err r) 0 true (run_out r)
      | Raises x =>
          result_record (run_out r) (failure_text (run_err r) x) 1 false
            (failure_text (run_err r) x)
      | Escapes | Dies | Loops => initial_result
      end
  end.
Proof.
  unfold spawn_worker, _run_code.
  destruct (enter_directory wd (caller w) (env w)) as [x | [c changed]].
  - apply record_failure_initial.
  - cbn zeta.
    destruct (run_ending (py_exec code _ c (env w))); cbn [wk_result].
    + apply record_success_initial.
    + apply record_failure_initial.
    + reflexivity.
    + reflexivity.
    + reflexivity.
Qed.

Lemma worker_result_well_formed (code : string) (wd : option string)
    (w : world) :
  well_formed (wk_result (spawn_worker code wd w)).
Proof.
  rewrite worker_result.
  destruct (enter_directory wd (caller w) (env w)) as [x | [c changed]].
  - constructor.
  - cbn zeta. destruct (run_ending _); constructor.
Qed.


(** [exec] is entered exactly when the directory was entered. *)
Lemma worker_ran_body (code : string) (wd : option string) (w : world) :
  wk_ran_body (spawn_worker code wd w)
  = match body_run code wd w with Some _ => true | None => false end.
Proof.
  unfold body_run, spawn_worker, _run_code.
  destruct (enter_directory wd (caller w) (env w)) as [x | [c changed]];
    [reflexivity|].
  cbn zeta. now destruct (run_ending _).
Qed.

(** The three ways [execute] hands a dict back. *)
Lemma execute_returned (code : string) (timeout : Z) (wd : option string)
    (w : world) (d : pydict) :
  fst (execute code timeout wd w) = Returned d ->
  (exists e, ast_parse code = SyntaxError e /\
     d = result_record "" ("SyntaxError: " ++ exn_str e ++ nl ++ exn_tb e)
           1 false ("SyntaxError: " ++ exn_str e ++ nl ++ exn_tb e)) \/
  (ast_parse code = Parsed /\
   is_alive_after_join timeout (wk_needs (spawn_worker code wd w)) = true /\
   d = result_record "" (timeout_message timeout wd) 1 false
         (timeout_message timeout wd)) \/
  (ast_parse code = Parsed /\ ends_in_time code timeout wd w /\
   d = wk_result (spawn_worker code wd w)).
Proof.
  unfold execute, ends_in_time.
  destruct (ast_parse code) as [ | e | e ]; cbn zeta.
  - destruct (is_alive_after_join timeout _) eqn:Alive; cbn [fst];
      intros [= <-]; auto.
  - cbn [fst]. intros [= <-]. left. now exists e.
  - cbn [fst]. discriminate.
Qed.

Lemma execute_well_formed (code : string) (timeout : Z)
    (wd : option string) (w : world) (d : pydict) :
  fst (execute code timeout wd w) = Returned d -> well_formed d.
Proof.
  intros Hd.
  destruct (execute_returned _ _ _ _ _ Hd)
    as [(e & _ & ->) | [(_ & _ & ->) | (_ & _ & ->)]].
  - apply wf_failure.
  - apply wf_failure.
  - apply worker_result_well_formed.
Qed.

End WorkerFacts.

(** ** The caller's process *)

Section CallerFrame.

Context `{H : Host}.

(** Nothing [execute] does touches the state of the process it is called
    in: the working directory is changed and the streams are redirected in
    the worker only. *)
Lemma execute_keeps_caller (code : string) (timeout : Z)
    (wd : option string) (w : world) :
  caller (snd (execute code timeout wd w)) = caller w.
Proof.
  unfold execute.
  case (ast_parse code); intros; cbn zeta;
    try case (is_alive_after_join timeout _); reflexivity.
Qed.

(** C1: after any call of [execute] the caller's working directory is the
    one it had before the call, whether the call ended normally, on a
    syntax error, on an exception, on a working directory that is no
    directory, or on a timeout with the worker terminated, and whatever
    the snippet did to the working directory of the worker. *)
Theorem execute_preserves_cwd (code : string) (timeout : Z)
    (wd : option string) (w : world) :
  cwd (caller (snd (execute code timeout wd w))) = cwd (caller w).
Proof. now rewrite execute_keeps_caller. Qed.

End CallerFrame.

(** ** The result record *)

Section ResultRecord.

Context `{H : Host}.

(** C3: in every result [execute] returns, [success] is true exactly when
    [exit_code] is 0. *)
Theorem success_iff_exit_code_zero (code : string) (timeout : Z)
    (wd : option string) (w : world) (d : pydict) :
  fst (execute code timeout wd w) = Returned d ->
  exists (ok : bool) (c : Z),
    d !! "success" = Some (VBool ok) /\
    d !! "exit_code" = Some (VInt c) /\
    (ok = true <-> c = 0).
Proof.
  intros Hd. apply execute_well_formed in Hd.
  destruct Hd as [out err | out err | ].
  - exists true, 0. repeat split; reflexivity.
  - exists false, 1. repeat split; try reflexivity; discriminate.
  - exists false, (-1). repeat split; try reflexivity; discriminate.
Qed.

(** C8: in every result [execute] returns, [observation] is [stdout] when
    [success] is true and [stderr] when it is false. *)
Theorem observation_mirrors (code : string) (timeout : Z)
    (wd : option string) (w : world) (d : pydict) :
  fst (execute code timeout wd w) = Returned d ->
  exists (ok : bool) (out err obs : string),
    d !! "success" = Some (VBool ok) /\
    d !! "stdout" = Some (VStr out) /\
    d !! "stderr" = Some (VStr err) /\
    d !! "observation" = Some (VStr obs) /\
    obs = (if ok then out else err).
Proof.
  intros Hd. apply execute_well_formed in Hd.
  inversion Hd as [out err Heq | out err Heq | Heq]; clear Hd Heq.
  - by exists true, out, err, out.
  - by exists false, out, err, err.
  - by exists false, "", "", "".
Qed.

End ResultRecord.

(** ** Syntax errors *)

Section SyntaxRejection.

Context `{H : Host}.


End SyntaxRejection.

(** ** Timeouts *)

Section Timeouts.

Context `{H : Host}.

Lemma truthy_nonempty (dir : string) : dir <> "" -> truthy (Some dir) = true.
Proof.
  intros Hne. unfold truthy.
  destruct (String.eqb_spec dir ""); [contradiction | reflexivity].
Qed.

Lemma timeout_message_names_directory (timeout : Z) (dir : string) :
  contains (timeout_message timeout (Some dir)) dir.
Proof.
  unfold timeout_message, truthy, wd_text.
  destruct (String.eqb_spec dir "") as [-> | Hne]; cbn [negb].
  - apply contains_empty.
  - apply contains_append_r, contains_here.
Qed.



End Timeouts.

(** ** What the worker records *)

Section WorkerOutcomes.

Context `{H : Host}.

(** The dict a call returns when its worker ended in time. *)
Lemma execute_in_time (code : string) (timeout : Z) (wd : option string)
    (w : world) :
  ast_parse code = Parsed -> ends_in_time code timeout wd w ->
  fst (execute code timeout wd w)
  = Returned (wk_result (spawn_worker code wd w)).
Proof.
  unfold ends_in_time, execute. intros -> Hended. cbn zeta.
  now rewrite Hended.
Qed.

Lemma body_run_result (code : string) (wd : option string) (w : world)
    (r : run Env object) :
  body_run code wd w = Some r ->
  wk_result (spawn_worker code wd w) =
  match run_ending r with
  | Returns => result_record (run_out r) (run_err r) 0 true (run_out r)
  | Raises x =>
      result_record (run_out r) (failure_text (run_err r) x) 1 false
        (failure_text (run_err r) x)
  | Escapes | Dies | Loops => initial_result
  end.
Proof.
  rewrite worker_result. unfold body_run.
  destruct (enter_directory wd (caller w) (env w)) as [x | [c changed]].
  - discriminate.
  - now intros [= <-].
Qed.


(** C10: when the worker ends in time without storing an outcome (the
    snippet raised SystemExit, or ended its own process), [execute]
    returns the initial values of the record: empty [stdout], [stderr] and
    [observation], [exit_code] -1 and [success] false. *)
Theorem unrecorded_result (code : string) (timeout : Z)
    (wd : option string) (w : world) :
  ends_unrecorded code timeout wd w ->
  fst (execute code timeout wd w)
  = Returned (result_record "" "" (-1) false "").
Proof.
  intros (Hparse & Hended & r & Hrun & Hending).
  rewrite (execute_in_time _ _ _ _ Hparse Hended).
  rewrite (body_run_result _ _ _ _ Hrun).
  destruct Hending as [-> | ->]; reflexivity.
Qed.

End WorkerOutcomes.

(** ** A working directory that is no directory *)

Section MissingDirectory.

Context `{H : Host}.

Lemma enter_missing_directory (dir : string) (p : process) (e : Env) :
  dir <> "" -> os_path_isdir e (cwd p) dir = false ->
  enter_directory (Some dir) p e = inl (file_not_found dir).
Proof.
  intros Hne Hdir. unfold enter_directory.
  now rewrite (truthy_nonempty _ Hne), Hdir.
Qed.

(** The text the exception handler stores names the directory. *)
Lemma failure_text_names_directory (dir : string) :
  contains (failure_text "" (file_not_found dir)) dir.
Proof.
  unfold failure_text, file_not_found, not_a_directory_message.
  cbn [exn_str exn_tb].
  set (tb := fnf_traceback _).
  replace ("Specified working_directory '" ++ dir
             ++ "' does not exist or is not a directory.")
    with (String "S" (("pecified working_directory '" ++ dir
             ++ "' does not exist or is not a directory") ++ String "." "")).
  - rewrite strip_keeps_line by reflexivity.
    apply contains_append_l.
    change (String "S" ("pecified working_directory '" ++ dir
              ++ "' does not exist or is not a directory"))
      with ("Specified working_directory '" ++ dir
              ++ "' does not exist or is not a directory").
    apply contains_here.
  - rewrite !append_assoc. reflexivity.
Qed.

(** C7, as the code has it: when the code parses and the working directory
    given is a non-empty path that is no directory, [execute] returns
    [success] false and [exit_code] 1 with a text in [stderr] and
    [observation] that names the path, and [exec] is never entered; when
    the worker ended in time, the result is the one the handler of runtime
    exceptions stores for the FileNotFoundError. *)
Theorem missing_directory_result (code : string) (timeout : Z)
    (dir : string) (w : world) :
  ast_parse code = Parsed ->
  dir <> "" ->
  os_path_isdir (env w) (cwd (caller w)) dir = false ->
  exists (d : pydict) (text : string),
    fst (execute code timeout (Some dir) w) = Returned d /\
    d !! "success" = Some (VBool false) /\
    d !! "exit_code" = Some (VInt 1) /\
    d !! "stderr" = Some (VStr text) /\
    d !! "observation" = Some (VStr text) /\
    contains text dir /\
    wk_ran_body (spawn_worker code (Some dir) w) = false /\
    (ends_in_time code timeout (Some dir) w ->
     d = record_failure "" "" (file_not_found dir) initial_result).
Proof.
  intros Hparse Hne Hdir.
  pose proof (enter_missing_directory dir (caller w) (env w) Hne Hdir)
    as Henter.
  assert (Hbody : wk_ran_body (spawn_worker code (Some dir) w) = false).
  { rewrite worker_ran_body. unfold body_run. now rewrite Henter. }
  destruct (is_alive_after_join timeout
              (wk_needs (spawn_worker code (Some dir) w))) eqn:Halive.
  - exists (result_record "" (timeout_message timeout (Some dir)) 1 false
              (timeout_message timeout (Some dir))),
           (timeout_message timeout (Some dir)).
    split.
    { unfold execute. rewrite Hparse. cbn zeta. now rewrite Halive. }
    do 4 (split; [reflexivity|]).
    split; [apply timeout_message_names_directory|].
    split; [exact Hbody|].
    unfold ends_in_time. rewrite Halive. discriminate.
  - exists (wk_result (spawn_worker code (Some dir) w)),
           (failure_text "" (file_not_found dir)).
    split; [now apply execute_in_time|].
    rewrite worker_result, Henter.
    do 4 (split; [reflexivity|]).
    split; [apply failure_text_names_directory|].
    split; [exact Hbody|].
    intros _. symmetry. apply record_failure_initial.
Qed.

End MissingDirectory.

(** ** The exit code *)

Section ExitCode.

Context `{H : Host}.




End ExitCode.

(** ** One call after another *)

Section Isolation.

Context `{H : Host}.

(** The globals of a call hold [__builtins__] and nothing else. *)
Lemma safe_globals_only_builtins (b : builtins_ref object) (name : string) :
  name <> "__builtins__" -> make_safe_globals b !! name = None.
Proof.
  intros Hname. destruct b as [names | names]; cbn [make_safe_globals];
    now apply lookup_singleton_ne.
Qed.

(** A call reads the caller's process and the host environment, not the
    events of earlier calls. *)
Lemma execute_reads (code : string) (timeout : Z) (wd : option string)
    (w w' : world) :
  caller w = caller w' -> env w = env w' ->
  fst (execute code timeout wd w) = fst (execute code timeout wd w').
Proof.
  intros Hcaller Henv. unfold execute, spawn_worker.
  rewrite Hcaller, Henv.
  destruct (ast_parse code); cbn zeta; [|reflexivity..].
  now destruct (is_alive_after_join timeout _).
Qed.

(** C9, as the code has it: a later call gets the same globals as if no
    earlier call had been made, [__builtins__] alone, so that no name the
    earlier snippet bound is visible in it; and its result is that of a
    call made by the untouched caller on the host environment the earlier
    call left behind: nothing but the host environment passes from one
    call to the next. *)
Theorem fresh_namespace_per_call (code1 code2 : string) (timeout1 timeout2 : Z)
    (wd1 wd2 : option string) (w : world) :
  let w1 := snd (execute code1 timeout1 wd1 w) in
  make_safe_globals (builtins (caller w1))
    = make_safe_globals (builtins (caller w)) /\
  (forall name : string, name <> "__builtins__" ->
     make_safe_globals (builtins (caller w1)) !! name = None) /\
  fst (execute code2 timeout2 wd2 w1)
    = fst (execute code2 timeout2 wd2
             {| caller := caller w; env := env w1; events := events w |}).
Proof.
  intros w1. subst w1.
  split; [now rewrite execute_keeps_caller|].
  split; [intros name; apply safe_globals_only_builtins|].
  apply execute_reads; cbn [caller env];
    [apply execute_keeps_caller | reflexivity].
Qed.

End Isolation.

(** ** Concrete calls on the small host *)

Section ConcreteCalls.

Import Demo.

Lemma substring_here (sub post : string) :
  substring 0 (String.length sub) (sub ++ post) = sub.
Proof.
  induction sub as [|c sub IH]; [now destruct post|].
  rewrite append_cons. cbn [String.length substring]. now rewrite IH.
Qed.

Lemma substring_after (pre sub post : string) :
  substring (String.length pre) (String.length sub) (pre ++ sub ++ post) = sub.
Proof.
  induction pre as [|c pre IH]; [exact (substring_here sub post)|].
  rewrite append_cons. cbn [String.length substring]. exact IH.
Qed.

(** [index] finds whatever a text contains. *)
Lemma not_contains (s sub : string) :
  sub <> "" -> index 0 sub s = None -> ~ contains s sub.
Proof.
  intros Hne Hindex (pre & post & ->).
  apply (index_correct3 0 (String.length pre) sub _ Hindex Hne);
    [apply Nat.le_0_l|].
  apply substring_after.
Qed.

(** The snippet moves its worker to [/tmp]; the worker is left there, the
    caller stays where it was. *)
Example worker_moves_caller_stays :
  option_map cwd (wk_process (spawn_worker chdir_tmp None agent))
    = Some "/tmp" /\
  cwd (caller (snd (execute chdir_tmp 5 None agent))) = "/home/agent".
Proof. split; reflexivity. Qed.

(** With a working directory given, the worker goes back before it ends. *)
Example worker_goes_back :
  option_map cwd (wk_process (spawn_worker chdir_tmp (Some "/tmp") agent))
    = Some "/home/agent".
Proof. reflexivity. Qed.



Lemma success_iff_exit_code_zero_hello :
  fst (execute hello 5 None agent)
    = Returned (result_record ("hi" ++ nl) "" 0 true ("hi" ++ nl)) /\
  exists (ok : bool) (c : Z),
    result_record ("hi" ++ nl) "" 0 true ("hi" ++ nl) !! "success"
      = Some (VBool ok) /\
    result_record ("hi" ++ nl) "" 0 true ("hi" ++ nl) !! "exit_code"
      = Some (VInt c) /\
    (ok = true <-> c = 0).
Proof.
  assert (E : fst (execute hello 5 None agent)
              = Returned (result_record ("hi" ++ nl) "" 0 true ("hi" ++ nl)))
    by (vm_compute; reflexivity).
  split; [exact E|].
  exact (success_iff_exit_code_zero hello 5 None agent _ E).
Defined.

Lemma observation_mirrors_timeout :
  fst (execute print_then_spin 5 None agent)
    = Returned (result_record "" "Execution timeout after 5 seconds" 1 false
                  "Execution timeout after 5 seconds") /\
  exists (ok : bool) (out err obs : string),
    result_record "" "Execution timeout after 5 seconds" 1 false
      "Execution timeout after 5 seconds" !! "success" = Some (VBool ok) /\
    result_record "" "Execution timeout after 5 seconds" 1 false
      "Execution timeout after 5 seconds" !! "stdout" = Some (VStr out) /\
    result_record "" "Execution timeout after 5 seconds" 1 false
      "Execution timeout after 5 seconds" !! "stderr" = Some (VStr err) /\
    result_record "" "Execution timeout after 5 seconds" 1 false
      "Execution timeout after 5 seconds" !! "observation"
      = Some (VStr obs) /\
    obs = (if ok then out else err).
Proof.
  assert (E : fst (execute print_then_spin 5 None agent)
              = Returned (result_record "" "Execution timeout after 5 seconds"
                            1 false "Execution timeout after 5 seconds"))
    by (vm_compute; reflexivity).
  split; [exact E|].
  exact (observation_mirrors print_then_spin 5 None agent _ E).
Defined.





Lemma unrecorded_result_sys_exit :
  ends_unrecorded sys_exit 5 None agent /\
  fst (execute sys_exit 5 None agent)
  = Returned (result_record "" "" (-1) false "").
Proof.
  assert (U : ends_unrecorded sys_exit 5 None agent).
  { split; [reflexivity|]. split; [reflexivity|].
    exists (demo_exec sys_exit (make_safe_globals (builtins (caller agent)))
              "/home/agent" (env agent)).
    split; [reflexivity|]. left. reflexivity. }
  split; [exact U|].
  exact (unrecorded_result sys_exit 5 None agent U).
Defined.

Lemma missing_directory_result_nowhere :
  ast_parse hello = Parsed /\
  "/nowhere" <> "" /\
  os_path_isdir (env agent) (cwd (caller agent)) "/nowhere" = false /\
  exists (d : pydict) (text : string),
    fst (execute hello 5 (Some "/nowhere") agent) = Returned d /\
    d !! "success" = Some (VBool false) /\
    d !! "exit_code" = Some (VInt 1) /\
    d !! "stderr" = Some (VStr text) /\
    d !! "observation" = Some (VStr text) /\
    contains text "/nowhere" /\
    wk_ran_body (spawn_worker hello (Some "/nowhere") agent) = false /\
    (ends_in_time hello 5 (Some "/nowhere") agent ->
     d = record_failure "" "" (file_not_found "/nowhere") initial_result).
Proof.
  split; [reflexivity|]. split; [discriminate|]. split; [reflexivity|].
  apply (missing_directory_result hello 5 "/nowhere" agent);
    [reflexivity | discriminate | reflexivity].
Defined.

(** C7, as stated, fails twice. An empty [working_directory] is no
    directory, yet [if working_directory:] takes it for none given: the
    snippet runs where the caller is, and succeeds. And when the code does
    not parse, the call is over before the directory is looked at: the
    text of the result is the syntax error, which does not name the
    path. *)
Lemma missing_directory_not_always_reported :
  (os_path_isdir (env agent) (cwd (caller agent)) "" = false /\
   wk_ran_body (spawn_worker hello (Some "") agent) = true /\
   fst (execute hello 5 (Some "") agent)
     = Returned (result_record ("hi" ++ nl) "" 0 true ("hi" ++ nl))) /\
  (os_path_isdir (env agent) (cwd (caller agent)) "/nowhere" = false /\
   exists text : string,
     fst (execute unclosed 5 (Some "/nowhere") agent)
       = Returned (result_record "" text 1 false text) /\
     ~ contains text "/nowhere").
Proof.
  split.
  - split; [reflexivity|]. split; [reflexivity|]. vm_compute. reflexivity.
  - split; [reflexivity|].
    exists ("SyntaxError: " ++ exn_str never_closed ++ nl
              ++ exn_tb never_closed).
    split; [vm_compute; reflexivity|].
    apply not_contains; [discriminate | vm_compute; reflexivity].
Qed.

(** C9, as stated, fails: the same snippet, [os.mkdir('/tmp/d')], called
    twice. The first call succeeds; the second call, which would succeed
    too had the first not been made, fails with FileExistsError: the
    directory the first call made is still there. *)
Lemma second_call_depends_on_first :
  let w1 := snd (execute mkdir 5 None agent) in
  fst (execute mkdir 5 None agent)
    = Returned (result_record "" "" 0 true "") /\
  fst (execute mkdir 5 None w1)
    = Returned (result_record "" (failure_text "" file_exists) 1 false
                  (failure_text "" file_exists)) /\
  fst (execute mkdir 5 None w1) <> fst (execute mkdir 5 None agent).
Proof.
  assert (E1 : fst (execute mkdir 5 None agent)
               = Returned (result_record "" "" 0 true ""))
    by (vm_compute; reflexivity).
  assert (E2 : fst (execute mkdir 5 None (snd (execute mkdir 5 None agent)))
               = Returned (result_record "" (failure_text "" file_exists) 1
                             false (failure_text "" file_exists)))
    by (vm_compute; reflexivity).
  cbn zeta. split; [exact E1|]. split; [exact E2|].
  rewrite E1, E2. intros E.
  apply (f_equal (fun r => match r with
                           | Returned d => d !! "exit_code"
                           | Propagated _ => None
                           end)) in E.
  vm_compute in E. discriminate E.
Qed.

(** The name the first snippet binds is in the globals of its worker and
    not in those of the next call. *)
Example bound_name_does_not_pass :
  let w1 := snd (execute assign_x 5 None agent) in
  wk_globals (spawn_worker assign_x None agent) !! "x" = Some (Obj 1) /\
  make_safe_globals (builtins (caller w1)) !! "x" = None.
Proof. split; vm_compute; reflexivity. Qed.

End ConcreteCalls.

(** ** More about [strip] *)

Module StripFacts.

Lemma lstrip_head (s : string) (c : ascii) (rest : string) :
  lstrip s = String c rest -> isspace c = false.
Proof.
  induction s as [|a s IH]; cbn [lstrip]; [discriminate|].
  destruct (isspace a) eqn:Ha; [exact IH|].
  intros [= <- _]. exact Ha.
Qed.

(** [rstrip] takes nothing away at the front of what it leaves. *)
Lemma rstrip_head (s : string) (c : ascii) (rest : string) :
  rstrip s = String c rest -> exists rest', s = String c rest'.
Proof.
  destruct s as [|a s]; cbn [rstrip]; [discriminate|].
  destruct (rstrip s); [destruct (isspace a); [discriminate|]|];
    intros [= <- _]; eauto.
Qed.

Lemma rstrip_last (s : string) (c : ascii) :
  last_char (rstrip s) = Some c -> isspace c = false.
Proof.
  induction s as [|a s IH]; cbn [rstrip]; [discriminate|].
  destruct (rstrip s) as [|b r] eqn:E.
  - destruct (isspace a) eqn:Ha; [discriminate|].
    cbn [last_char]. intros [= <-]. exact Ha.
  - cbn [last_char]. exact IH.
Qed.

Lemma strip_head (s : string) (c : ascii) (rest : string) :
  strip s = String c rest -> isspace c = false.
Proof.
  unfold strip. intros E. destruct (rstrip_head _ _ _ E) as [rest' E'].
  exact (lstrip_head _ _ _ E').
Qed.

Lemma strip_last (s : string) (c : ascii) :
  last_char (strip s) = Some c -> isspace c = false.
Proof. apply rstrip_last. Qed.

(** Stripping from the left stops at the latest at a character that is
    not white space. *)
Lemma lstrip_stops (p : string) (a : ascii) (s : string) :
  isspace a = false ->
  exists p', lstrip (p ++ String a s) = p' ++ String a s.
Proof.
  intros Ha. induction p as [|b p IH].
  - exists "". change ("" ++ String a s) with (String a s).
    now apply lstrip_keeps.
  - rewrite append_cons. cbn [lstrip]. destruct (isspace b).
    + exact IH.
    + exists (String b p). now rewrite append_cons.
Qed.

Lemma last_char_split (s : string) (z : ascii) :
  last_char s = Some z -> exists s0, s = s0 ++ String z "".
Proof.
  induction s as [|a s IH]; [discriminate|].
  destruct s as [|b s].
  - intros [= <-]. now exists "".
  - cbn [last_char]. intros E. destruct (IH E) as [s0 ->].
    exists (String a s0). now rewrite append_cons.
Qed.

(** A text that [strip] leaves alone survives inside a longer text that is
    stripped, when a line feed follows it. *)
Lemma strip_keeps_stable (before m after : string) :
  strip m = m ->
  contains (strip (before ++ nl ++ m ++ nl ++ after)) m.
Proof.
  intros Hm. destruct m as [|a m'] eqn:Em; [apply contains_empty|].
  rewrite <- Em in *.
  assert (Ha : isspace a = false).
  { apply (strip_head m a m'). now rewrite Hm. }
  assert (Hlast : exists z, last_char m = Some z).
  { rewrite Em. clear. revert a. induction m' as [|b m' IH]; intros a.
    - now exists a.
    - destruct (IH b) as [z Hz]. exists z. exact Hz. }
  destruct Hlast as [z Hz].
  assert (Hzs : isspace z = false).
  { apply (strip_last m). now rewrite Hm. }
  destruct (last_char_split _ _ Hz) as [m0 Hm0].
  unfold strip.
  destruct (lstrip_stops (before ++ nl) a (m' ++ nl ++ after) Ha)
    as [p' Hp'].
  replace (before ++ nl ++ m ++ nl ++ after)
    with ((before ++ nl) ++ String a (m' ++ nl ++ after))
    by (rewrite Em, !append_assoc; reflexivity).
  rewrite Hp'.
  replace (p' ++ String a (m' ++ nl ++ after))
    with ((p' ++ m0) ++ String z (nl ++ after)).
  - rewrite rstrip_keeps by exact Hzs.
    exists p', (rstrip (nl ++ after)).
    rewrite Hm0, !append_assoc. reflexivity.
  - rewrite <- (append_cons a m'), <- Em, Hm0, !append_assoc. reflexivity.
Qed.

End StripFacts.

Import StripFacts.

(** ** The worker's own state *)

Section WorkerState.

Context `{H : Host}.

(** Whenever [_run_code] is left, [sys.stdout] and [sys.stderr] are bound
    again to what they were bound to when it was entered: the [finally]
    block runs after a normal end, after a handled exception, after a
    directory that could not be entered and after a BaseException that
    passes through. *)
Theorem run_code_restores_streams (code : string) (result_dict : pydict)
    (safe_globals : gmap string (binding object)) (wd : option string) (p : process) (e : Env)
    (q : process) :
  wk_process (_run_code code result_dict safe_globals wd p e) = Some q ->
  sys_stdout q = sys_stdout p /\ sys_stderr q = sys_stderr p.
Proof.
  unfold _run_code.
  destruct (enter_directory wd p e) as [x | [c changed]].
  - cbn [wk_process]. intros [= <-]. split; reflexivity.
  - cbn zeta. destruct (run_ending _); cbn [wk_process];
      intros Hq; try discriminate Hq;
      injection Hq as <-; split; reflexivity.
Qed.

(** With a working directory given, the worker is back in the directory
    it started in whenever [_run_code] is left, wherever the snippet went
    and whether or not the directory could be entered. *)
Theorem run_code_goes_back (code : string) (result_dict : pydict)
    (safe_globals : gmap string (binding object)) (wd : option string) (p : process) (e : Env)
    (q : process) :
  truthy wd = true ->
  wk_process (_run_code code result_dict safe_globals wd p e) = Some q ->
  cwd q = cwd p.
Proof.
  intros Hwd. unfold _run_code, enter_directory.
  destruct wd as [dir|]; [|discriminate Hwd]. rewrite Hwd.
  destruct (os_path_isdir e (cwd p) dir).
  - destruct (os_chdir e (cwd p) dir) as [c | x].
    + cbn zeta. destruct (run_ending _); cbn [wk_process];
        intros Hq; try discriminate Hq; now injection Hq as <-.
    + cbn [wk_process]. now intros [= <-].
  - cbn [wk_process]. now intros [= <-].
Qed.

(** With no working directory given (or an empty one), nothing takes the
    worker back: when [_run_code] is left, the worker is where the snippet
    left it. *)
Theorem run_code_stays_where_snippet_went (code : string)
    (result_dict : pydict) (safe_globals : gmap string (binding object)) (wd : option string)
    (p : process) (e : Env) (q : process) :
  truthy wd = false ->
  wk_process (_run_code code result_dict safe_globals wd p e) = Some q ->
  cwd q = run_cwd (py_exec code safe_globals (cwd p) e).
Proof.
  intros Hwd. unfold _run_code.
  assert (Henter : enter_directory wd p e = inr (cwd p, false)).
  { unfold enter_directory. destruct wd; [now rewrite Hwd | reflexivity]. }
  rewrite Henter. cbn zeta.
  destruct (run_ending _); cbn [wk_process];
    intros Hq; try discriminate Hq; now injection Hq as <-.
Qed.

(** Five stores, one after the other, into a dict. *)
Lemma five_stores (out err obs : string) (c : Z) (ok : bool) (d : pydict) :
  <["observation" := VStr obs]>
    (<["success" := VBool ok]>
       (<["exit_code" := VInt c]>
          (<["stderr" := VStr err]> (<["stdout" := VStr out]> d))))
  = result_record out err c ok obs ∪ d.
Proof.
  unfold result_record.
  rewrite <- !insert_union_l, <- insert_union_singleton_l.
  apply map_eq. intros k.
  destruct (decide (k = "stdout")) as [->|?]; [by simplify_map_eq|].
  destruct (decide (k = "stderr")) as [->|?]; [by simplify_map_eq|].
  destruct (decide (k = "exit_code")) as [->|?]; [by simplify_map_eq|].
  destruct (decide (k = "success")) as [->|?]; [by simplify_map_eq|].
  destruct (decide (k = "observation")) as [->|?]; [by simplify_map_eq|].
  by simplify_map_eq.
Qed.

(** The writes of lines 60-64 and of lines 68-72 set the five fields,
    whatever the dict held before, and leave every other key of the dict
    as it was; reading back the field that [observation] copies never
    fails. *)
Theorem record_overwrites (out err : string) (e : exn) (d : pydict) :
  record_success out err d = result_record out err 0 true out ∪ d /\
  record_failure out err e d
  = result_record out (failure_text err e) 1 false (failure_text err e) ∪ d.
Proof.
  split.
  - unfold record_success, copy_item. cbn zeta.
    replace (_ !! "stdout") with (Some (VStr out)) by (by simplify_map_eq).
    apply five_stores.
  - unfold record_failure, copy_item. cbn zeta.
    replace (_ !! "stderr") with (Some (VStr (failure_text err e)))
      by (by simplify_map_eq).
    apply five_stores.
Qed.

End WorkerState.

(** ** More about the calls *)

Section MoreCalls.

Context `{H : Host}.



(** An empty [working_directory] is the same call as none: the same result
    and the same effects. *)
Theorem empty_directory_is_none (code : string) (timeout : Z) (w : world) :
  execute code timeout (Some "") w = execute code timeout None w.
Proof. reflexivity. Qed.

(** When the working directory exists and [os.chdir] fails on it, the
    OSError takes the way of a runtime exception: [exec] is not entered,
    the host environment stays as it was, and a worker that ended in time
    leaves [exit_code] 1, [success] false, an empty [stdout], and the
    stripped message and traceback of the error in [stderr] and
    [observation]. *)
Theorem chdir_failure_result (code : string) (timeout : Z) (dir : string)
    (w : world) (x : exn) :
  ast_parse code = Parsed ->
  dir <> "" ->
  os_path_isdir (env w) (cwd (caller w)) dir = true ->
  os_chdir (env w) (cwd (caller w)) dir = ChdirFails x ->
  wk_ran_body (spawn_worker code (Some dir) w) = false /\
  env (snd (execute code timeout (Some dir) w)) = env w /\
  (ends_in_time code timeout (Some dir) w ->
   fst (execute code timeout (Some dir) w)
   = Returned (result_record "" (failure_text "" x) 1 false
                 (failure_text "" x))).
Proof.
  intros Hparse Hne Hdir Hchdir.
  assert (Henter : enter_directory (Some dir) (caller w) (env w) = inl x).
  { unfold enter_directory.
    now rewrite (truthy_nonempty _ Hne), Hdir, Hchdir. }
  split; [|split].
  - rewrite worker_ran_body. unfold body_run. now rewrite Henter.
  - unfold execute, spawn_worker, _run_code.
    rewrite Hparse, Henter. cbn zeta.
    now destruct (is_alive_after_join timeout _).
  - intros Hended. rewrite (execute_in_time _ _ _ _ Hparse Hended).
    now rewrite worker_result, Henter.
Qed.

(** Every dict [execute] returns has the five keys [stdout], [stderr],
    [exit_code], [success] and [observation], and no other key. *)
Theorem result_keys (code : string) (timeout : Z) (wd : option string)
    (w : world) (d : pydict) :
  fst (execute code timeout wd w) = Returned d ->
  dom d = ({[ "stdout"; "stderr"; "exit_code"; "success"; "observation" ]}
             : gset string).
Proof.
  intros Hd. apply execute_well_formed in Hd.
  destruct Hd; unfold initial_result, result_record;
    rewrite !dom_insert_L, dom_singleton_L; set_solver.
Qed.

(** The [stderr] of a runtime error neither starts nor ends with white
    space, whatever the snippet wrote to its error stream and whatever the
    traceback ends with. *)
Theorem runtime_error_text_stripped (code : string) (timeout : Z)
    (wd : option string) (w : world) (r : run Env object) (e : exn) :
  ast_parse code = Parsed ->
  ends_in_time code timeout wd w ->
  body_run code wd w = Some r ->
  run_ending r = Raises e ->
  exists text : string,
    fst (execute code timeout wd w)
    = Returned (result_record (run_out r) text 1 false text) /\
    (forall c rest, text = String c rest -> isspace c = false) /\
    (forall c, last_char text = Some c -> isspace c = false).
Proof.
  intros Hparse Hended Hrun Hraises.
  exists (failure_text (run_err r) e). split; [|split].
  - rewrite (execute_in_time _ _ _ _ Hparse Hended).
    now rewrite (body_run_result _ _ _ _ Hrun), Hraises.
  - intros c rest. apply strip_head.
  - intros c. apply strip_last.
Qed.

(** The [stderr] of a runtime error contains the exception's message,
    provided the message itself has no white space at its ends. *)
Theorem runtime_error_names_message (code : string) (timeout : Z)
    (wd : option string) (w : world) (r : run Env object) (e : exn) :
  ast_parse code = Parsed ->
  ends_in_time code timeout wd w ->
  body_run code wd w = Some r ->
  run_ending r = Raises e ->
  strip (exn_str e) = exn_str e ->
  exists text : string,
    fst (execute code timeout wd w)
    = Returned (result_record (run_out r) text 1 false text) /\
    contains text (exn_str e).
Proof.
  intros Hparse Hended Hrun Hraises Hstable.
  exists (failure_text (run_err r) e). split.
  - rewrite (execute_in_time _ _ _ _ Hparse Hended).
    now rewrite (body_run_result _ _ _ _ Hrun), Hraises.
  - unfold failure_text. now apply strip_keeps_stable.
Qed.



End MoreCalls.

(** ** More concrete calls *)

Section MoreConcreteCalls.

Import Demo.

Lemma run_code_restores_streams_hello :
  wk_process (_run_code hello initial_result
                (make_safe_globals (builtins (caller agent))) None
                (caller agent) (env agent))
    = Some (caller agent) /\
  sys_stdout (caller agent) = sys_stdout (caller agent) /\
  sys_stderr (caller agent) = sys_stderr (caller agent).
Proof.
  split; [reflexivity|].
  apply (run_code_restores_streams hello initial_result
           (make_safe_globals (builtins (caller agent))) None
           (caller agent) (env agent) (caller agent)).
  reflexivity.
Defined.

Lemma run_code_goes_back_from_tmp :
  truthy (Some "/tmp") = true /\
  run_cwd (demo_exec chdir_tmp (make_safe_globals (builtins (caller agent)))
             "/tmp" (env agent)) = "/tmp" /\
  wk_process (_run_code chdir_tmp initial_result
                (make_safe_globals (builtins (caller agent))) (Some "/tmp")
                (caller agent) (env agent))
    = Some (caller agent) /\
  cwd (caller agent) = cwd (caller agent).
Proof.
  do 3 (split; [reflexivity|]).
  apply (run_code_goes_back chdir_tmp initial_result
           (make_safe_globals (builtins (caller agent))) (Some "/tmp")
           (caller agent) (env agent) (caller agent)); reflexivity.
Defined.

Lemma run_code_stays_in_tmp :
  truthy None = false /\
  wk_process (_run_code chdir_tmp initial_result
                (make_safe_globals (builtins (caller agent))) None
                (caller agent) (env agent))
    = Some {| cwd := "/tmp"; sys_stdout := Inherited;
              sys_stderr := Inherited;
              builtins := builtins (caller agent) |} /\
  "/tmp" = run_cwd (py_exec chdir_tmp
                      (make_safe_globals (builtins (caller agent)))
                      (cwd (caller agent)) (env agent)).
Proof.
  do 2 (split; [reflexivity|]).
  apply (run_code_stays_where_snippet_went chdir_tmp initial_result
           (make_safe_globals (builtins (caller agent))) None
           (caller agent) (env agent)
           {| cwd := "/tmp"; sys_stdout := Inherited;
              sys_stderr := Inherited;
              builtins := builtins (caller agent) |}); reflexivity.
Defined.


Lemma chdir_failure_result_root :
  @ast_parse Locked.host hello = Parsed /\
  "/root" <> "" /\
  @os_path_isdir Locked.host (env Locked.agent) (cwd (caller Locked.agent))
    "/root" = true /\
  @os_chdir Locked.host (env Locked.agent) (cwd (caller Locked.agent))
    "/root" = ChdirFails Locked.permission_denied /\
  @ends_in_time Locked.host hello 5 (Some "/root") Locked.agent /\
  wk_ran_body (@spawn_worker Locked.host hello (Some "/root") Locked.agent)
    = false /\
  env (snd (@execute Locked.host hello 5 (Some "/root") Locked.agent))
    = env Locked.agent /\
  (@ends_in_time Locked.host hello 5 (Some "/root") Locked.agent ->
   fst (@execute Locked.host hello 5 (Some "/root") Locked.agent)
   = Returned (result_record "" (failure_text "" Locked.permission_denied)
                 1 false (failure_text "" Locked.permission_denied))).
Proof.
  split; [reflexivity|]. split; [discriminate|].
  do 3 (split; [reflexivity|]).
  apply (@chdir_failure_result Locked.host hello 5 "/root" Locked.agent
           Locked.permission_denied);
    [reflexivity | discriminate | reflexivity | reflexivity].
Defined.


Lemma result_keys_hello :
  fst (execute hello 5 None agent)
    = Returned (result_record ("hi" ++ nl) "" 0 true ("hi" ++ nl)) /\
  dom (result_record ("hi" ++ nl) "" 0 true ("hi" ++ nl))
  = ({[ "stdout"; "stderr"; "exit_code"; "success"; "observation" ]}
       : gset string).
Proof.
  assert (E : fst (execute hello 5 None agent)
              = Returned (result_record ("hi" ++ nl) "" 0 true ("hi" ++ nl)))
    by (vm_compute; reflexivity).
  split; [exact E|].
  exact (result_keys hello 5 None agent _ E).
Defined.

Lemma runtime_error_text_stripped_divide :
  ast_parse print_then_divide = Parsed /\
  ends_in_time print_then_divide 5 None agent /\
  body_run print_then_divide None agent = Some divide_run /\
  run_ending divide_run = Raises zero_division /\
  exists text : string,
    fst (execute print_then_divide 5 None agent)
    = Returned (result_record (run_out divide_run) text 1 false text) /\
    (forall c rest, text = String c rest -> isspace c = false) /\
    (forall c, last_char text = Some c -> isspace c = false).
Proof.
  do 4 (split; [reflexivity|]).
  apply (runtime_error_text_stripped print_then_divide 5 None agent
           divide_run zero_division); reflexivity.
Defined.

Lemma runtime_error_names_message_divide :
  ast_parse print_then_divide = Parsed /\
  ends_in_time print_then_divide 5 None agent /\
  body_run print_then_divide None agent = Some divide_run /\
  run_ending divide_run = Raises zero_division /\
  strip (exn_str zero_division) = exn_str zero_division /\
  exists text : string,
    fst (execute print_then_divide 5 None agent)
    = Returned (result_record (run_out divide_run) text 1 false text) /\
    contains text (exn_str zero_division).
Proof.
  do 5 (split; [reflexivity|]).
  apply (runtime_error_names_message print_then_divide 5 None agent
           divide_run zero_division); reflexivity.
Defined.



End MoreConcreteCalls.
